(** * Forward kinematics of the planar arm in [robot3D_basic.py]

    A shallow embedding of [RotationMatrix], [getLocalFrameMatrix] and
    [forward_kinematics], with the numpy operations they call
    ([np.array], [np.zeros], [np.block], [@], slicing), followed by the
    properties of the kinematic chain.

    Numbers are kept behind the interface [Scalar], so that the same
    definitions are read over the exact reals (where the algebraic
    properties are proved) and over a float-like carrier with NaN and
    infinities (where the absence of input validation is shown). *)

From Stdlib Require Import Reals List String Bool Arith Lia Lra.
Import ListNotations.

Set Implicit Arguments.

(** ** Exceptions and the error monad *)

(** The Python exceptions the modelled statements can raise, and the three
    error kinds named by the specification's taxonomy.  No statement of the
    source raises one of the latter three. *)
Inductive exn : Type :=
| UnboundLocalError (name : string)
| IndexError
| TypeError
| ValueError
| InvalidAxis
| DimensionMismatch
| NonFiniteValue.

Inductive result (X : Type) : Type :=
| Ok (x : X)
| Err (e : exn).

Arguments Ok {X} x.
Arguments Err {X} e.

Definition bind {X Y : Type} (m : result X) (k : X -> result Y) : result Y :=
  match m with
  | Ok x => k x
  | Err e => Err e
  end.

Notation "x <- m ;; k" := (bind m (fun x => k))
  (at level 61, m at next level, right associativity).

(** ** Scalars *)

(** What the source asks of its numbers: literals, [+], [*], [/], unary [-],
    [np.cos] and [np.sin]. *)
Class Scalar (A : Type) : Type := {
  lit : R -> A;
  sadd : A -> A -> A;
  smul : A -> A -> A;
  sdiv : A -> A -> A;
  sneg : A -> A;
  np_cos : A -> A;
  np_sin : A -> A
}.

(** Exact real arithmetic. *)
#[export] Instance R_Scalar : Scalar R := {|
  lit := fun r => r;
  sadd := Rplus;
  smul := Rmult;
  sdiv := Rdiv;
  sneg := Ropp;
  np_cos := cos;
  np_sin := sin
|}.

(** A float64 as numpy treats it, with finite values idealised as exact
    reals (no rounding, no overflow, one zero): a finite number, an infinity
    with its sign ([true] for negative), or NaN. *)
Inductive npfloat : Type :=
| Fin (r : R)
| Inf (negative : bool)
| NaN.

Definition Rneg (r : R) : bool := if Rlt_dec r 0 then true else false.
Definition Rzero (r : R) : bool := if Req_dec_T r 0 then true else false.

Definition npfloat_add (a b : npfloat) : npfloat :=
  match a, b with
  | NaN, _ | _, NaN => NaN
  | Inf s, Inf s' => if Bool.eqb s s' then Inf s else NaN
  | Inf s, Fin _ | Fin _, Inf s => Inf s
  | Fin x, Fin y => Fin (x + y)
  end.

Definition npfloat_mul (a b : npfloat) : npfloat :=
  match a, b with
  | NaN, _ | _, NaN => NaN
  | Inf s, Inf s' => Inf (xorb s s')
  | Inf s, Fin x | Fin x, Inf s =>
      if Rzero x then NaN else Inf (xorb s (Rneg x))
  | Fin x, Fin y => Fin (x * y)
  end.

Definition npfloat_div (a b : npfloat) : npfloat :=
  match a, b with
  | NaN, _ | _, NaN => NaN
  | Inf _, Inf _ => NaN
  | Inf s, Fin y => Inf (xorb s (Rneg y))
  | Fin _, Inf _ => Fin 0
  | Fin x, Fin y =>
      if Rzero y then (if Rzero x then NaN else Inf (Rneg x))
      else Fin (x / y)
  end.

Definition npfloat_neg (a : npfloat) : npfloat :=
  match a with
  | Fin x => Fin (- x)
  | Inf s => Inf (negb s)
  | NaN => NaN
  end.

(** [np.cos] and [np.sin] of an infinity or of NaN are NaN (numpy warns and
    goes on). *)
Definition npfloat_cos (a : npfloat) : npfloat :=
  match a with
  | Fin x => Fin (cos x)
  | _ => NaN
  end.

Definition npfloat_sin (a : npfloat) : npfloat :=
  match a with
  | Fin x => Fin (sin x)
  | _ => NaN
  end.

#[export] Instance npfloat_Scalar : Scalar npfloat := {|
  lit := Fin;
  sadd := npfloat_add;
  smul := npfloat_mul;
  sdiv := npfloat_div;
  sneg := npfloat_neg;
  np_cos := npfloat_cos;
  np_sin := npfloat_sin
|}.

Definition is_finite (a : npfloat) : bool :=
  match a with
  | Fin _ => true
  | _ => false
  end.

(** ** numpy arrays and the three functions of the source *)

Section Kinematics.

Context {A : Type} `{Scalar A}.

Declare Scope scalar_scope.
Delimit Scope scalar_scope with S.
Local Notation "a + b" := (sadd a b) : scalar_scope.
Local Notation "a * b" := (smul a b) : scalar_scope.
Local Notation "a / b" := (sdiv a b) : scalar_scope.
Local Notation "- a" := (sneg a) : scalar_scope.

(** A 1-D array is a list; a 2-D array is the list of its rows. *)
Definition vector : Type := list A.
Definition matrix : Type := list (list A).

Definition nrows (M : matrix) : nat := List.length M.

(** The width is read off the first row; an array without rows counts as
    having no columns. *)
Definition ncols (M : matrix) : nat :=
  match M with
  | [] => 0%nat
  | r :: _ => List.length r
  end.

(** [M] is an [n] x [m] array. *)
Definition has_shape (n m : nat) (M : matrix) : Prop :=
  List.length M = n /\ Forall (fun r => List.length r = m) M.

(** [Phi[i]] on a Python list, for [i >= 0]. *)
Definition getitem (Phi : list A) (i : nat) : result A :=
  match nth_error Phi i with
  | Some x => Ok x
  | None => Err IndexError
  end.

(** [np.zeros((n, m))]. *)
Definition np_zeros (n m : nat) : matrix := repeat (repeat (lit 0) m) n.

Definition col (j : nat) (M : matrix) : vector :=
  map (fun r => nth j r (lit 0)) M.

Definition dot (u v : vector) : A :=
  fold_left sadd (map (fun p => (fst p * snd p)%S) (combine u v)) (lit 0).

(** [M @ N] on 2-D arrays: the inner dimensions must agree. *)
Definition matmul (M N : matrix) : result matrix :=
  if (ncols M =? nrows N)%nat
  then Ok (map (fun r => map (fun j => dot r (col j N)) (seq 0 (ncols N))) M)
  else Err ValueError.

(** The two concatenations [np.block] performs on a nested list of 2-D
    blocks: along the last axis within each inner list, then along the first
    axis. *)
Definition hstack (M N : matrix) : result matrix :=
  if (nrows M =? nrows N)%nat
  then Ok (map (fun p => fst p ++ snd p) (combine M N))
  else Err ValueError.

Definition vstack (M N : matrix) : result matrix :=
  if (ncols M =? ncols N)%nat
  then Ok (M ++ N)
  else Err ValueError.

(** [np.block([[M11, M12], [M21, M22]])]. *)
Definition np_block (M11 M12 M21 M22 : matrix) : result matrix :=
  top <- hstack M11 M12 ;;
  bottom <- hstack M21 M22 ;;
  vstack top bottom.

(** [M[0:3, -1]]: the last entry of each of the first three rows, as a 1-D
    array.  The index [-1] is out of bounds on an axis of size 0. *)
Definition last_column_top3 (M : matrix) : result vector :=
  if (ncols M =? 0)%nat
  then Err IndexError
  else Ok (map (fun r => last r (lit 0)) (firstn 3 M)).

(** [RotationMatrix(theta, axis_name)].  The local [rotation_matrix] is
    unbound until one of the branches assigns it; the source tests ['x'] in
    an [if] of its own and ['y'], ['z'] in an [if]/[elif] after it. *)
Definition RotationMatrix (theta : A) (axis_name : string) : result matrix :=
  let c := np_cos (theta * lit PI / lit 180)%S in
  let s := np_sin (theta * lit PI / lit 180)%S in
  let rotation_matrix : option matrix := None in
  let rotation_matrix :=
    if (axis_name =? "x")%string
    then Some [[lit 1; lit 0; lit 0];
               [lit 0; c; (- s)%S];
               [lit 0; s; c]]
    else rotation_matrix in
  let rotation_matrix :=
    if (axis_name =? "y")%string
    then Some [[c; lit 0; s];
               [lit 0; lit 1; lit 0];
               [(- s)%S; lit 0; c]]
    else if (axis_name =? "z")%string
    then Some [[c; (- s)%S; lit 0];
               [s; c; lit 0];
               [lit 0; lit 0; lit 1]]
    else rotation_matrix in
  match rotation_matrix with
  | Some m => Ok m
  | None => Err (UnboundLocalError "rotation_matrix")
  end.

(** [getLocalFrameMatrix(R_ij, t_ij)]; the scalar [1] of the source is the
    1 x 1 block [[1]] for [np.block]. *)
Definition getLocalFrameMatrix (R_ij t_ij : matrix) : result matrix :=
  T_ij <- np_block R_ij t_ij (np_zeros 1 3) [[lit 1]] ;;
  Ok T_ij.

(** [forward_kinematics(Phi, L1, L2, L3, L4)]. *)
Definition forward_kinematics (Phi : list A) (L1 L2 L3 L4 : A)
  : result (matrix * matrix * matrix * matrix * vector) :=
  let r1 := lit 0.4 in
  (* Matrix 1 *)
  phi0 <- getitem Phi 0 ;;
  R_01 <- RotationMatrix phi0 "z" ;;
  let p1 := [[lit 3]; [lit 2]; [lit 0.0]] in
  let t_01 := p1 in
  T_01 <- getLocalFrameMatrix R_01 t_01 ;;
  (* Matrix 2 *)
  phi1 <- getitem Phi 1 ;;
  R_12 <- RotationMatrix phi1 "z" ;;
  let p2 := [[(L1 + lit 2 * r1)%S]; [lit 0.0]; [lit 0.0]] in
  let t_12 := p2 in
  T_12 <- getLocalFrameMatrix R_12 t_12 ;;
  T_02 <- matmul T_01 T_12 ;;
  (* Matrix 3 *)
  phi2 <- getitem Phi 2 ;;
  R_23 <- RotationMatrix phi2 "z" ;;
  let p3 := [[(L2 + lit 2 * r1)%S]; [lit 0.0]; [lit 0.0]] in
  let t_23 := p3 in
  T_23 <- getLocalFrameMatrix R_23 t_23 ;;
  T_03 <- (M <- matmul T_01 T_12 ;; matmul M T_23) ;;
  (* Matrix 4 *)
  phi3 <- getitem Phi 3 ;;
  R_34 <- RotationMatrix phi3 "z" ;;
  let p4 := [[(L3 + lit 2 * r1)%S]; [lit 0.0]; [lit 0.0]] in
  let t_34 := p4 in
  T_34 <- getLocalFrameMatrix R_34 t_34 ;;
  T_04 <- (M <- (M <- matmul T_01 T_12 ;; matmul M T_23) ;; matmul M T_34) ;;
  e <- last_column_top3 T_04 ;;
  Ok (T_01, T_02, T_03, T_04, e).

(** A call [forward_kinematics(Phi, *Ls)] that passes the link lengths as a
    sequence: Python binds the positional arguments before the body runs and
    raises [TypeError] unless there are exactly four. *)
Definition forward_kinematics_call (Phi Ls : list A)
  : result (matrix * matrix * matrix * matrix * vector) :=
  match Ls with
  | [L1; L2; L3; L4] => forward_kinematics Phi L1 L2 L3 L4
  | _ => Err TypeError
  end.

End Kinematics.

(** ** Notions the properties are stated with *)

Section Notions.

Context {A : Type} `{Scalar A}.

(** The transpose of a 2-D array. *)
Definition transpose (M : matrix) : matrix :=
  map (fun j => col j M) (seq 0 (ncols M)).

(** The [n] x [n] identity. *)
Definition identity (n : nat) : matrix :=
  map (fun i => map (fun j => if (i =? j)%nat then lit 1 else lit 0) (seq 0 n))
      (seq 0 n).

(** Remove entry [j] of a row. *)
Definition drop_entry (j : nat) (r : list A) : list A :=
  firstn j r ++ skipn (S j) r.

(** Determinant of an [n] x [n] array by expansion along the first row. *)
Fixpoint det (n : nat) (M : matrix) : A :=
  match n, M with
  | O, _ => lit 1
  | S k, r :: M' =>
      fold_left sadd
        (map (fun j =>
                let minor := det k (map (drop_entry j) M') in
                let term := smul (nth j r (lit 0)) minor in
                if Nat.even j then term else sneg term)
             (seq 0 (S k)))
        (lit 0)
  | S _, [] => lit 0
  end.

(** The local transform of a joint of the chain: a rotation about z by the
    joint angle, and the offset of the joint in the previous frame. *)
Definition local_transform (phi : A) (t : matrix) : result matrix :=
  R_ij <- RotationMatrix phi "z" ;;
  getLocalFrameMatrix R_ij t.

(** The product of a non-empty chain of transforms, associated to the left:
    [product_from T [T1; ...; Tk]] is [(...(T @ T1) @ ...) @ Tk]. *)
Definition product_from (T : matrix) (Ts : list matrix) : result matrix :=
  fold_left (fun acc Ti => M <- acc ;; matmul M Ti) Ts (Ok T).

(** The column vector (an [n] x 1 array) of a list of entries. *)
Definition column (v : list A) : matrix := map (fun x => [x]) v.

(** The translation block of a 4 x 4 transform: the first three entries of
    its last column. *)
Definition translation_of (T : matrix) : list A :=
  map (fun r => nth 3 r (lit 0)) (firstn 3 T).

End Notions.

(** The tuple returned by [forward_kinematics], by component. *)
Definition world_frames {A : Type}
  (out : list (list A) * list (list A) * list (list A) * list (list A) * list A)
  : list (list (list A)) :=
  let '(T_01, T_02, T_03, T_04, _) := out in [T_01; T_02; T_03; T_04].

Definition end_effector {A : Type}
  (out : list (list A) * list (list A) * list (list A) * list (list A) * list A)
  : list A :=
  let '(_, _, _, _, e) := out in e.

(** A transform that keeps the arm in the plane: its third row is the third
    row of the identity and its bottom row is [0, 0, 0, 1]. *)
Definition planar_transform (T : list (list R)) : Prop :=
  exists r0 r1 : list R,
    T = [r0; r1; [0; 0; 1; 0]; [0; 0; 0; 1]]%R /\
    List.length r0 = 4%nat /\ List.length r1 = 4%nat.

(** ** Notions for the further properties *)

Section BlockNotions.

Context {A : Type} `{Scalar A}.

(** The rotation block of a transform: its top-left 3 x 3 block. *)
Definition rotation_of (T : list (list A)) : list (list A) :=
  map (firstn 3) (firstn 3 T).

(** Entrywise sums of 1-D and of 2-D arrays of the same shape. *)
Definition vadd (u v : list A) : list A :=
  map (fun p => sadd (fst p) (snd p)) (combine u v).


End BlockNotions.

Definition result_map {X Y : Type} (f : X -> Y) (m : result X) : result Y :=
  match m with
  | Ok x => Ok (f x)
  | Err e => Err e
  end.

(** Degrees to radians, as [RotationMatrix] converts its angle. *)
Definition radians (d : R) : R := (d * PI / 180)%R.


(** The unit vector along a named axis, and the axis that follows it in the
    cyclic order x, y, z. *)
Definition axis_vector (axis_name : string) : list R :=
  if (axis_name =? "x")%string then [1; 0; 0]%R
  else if (axis_name =? "y")%string then [0; 1; 0]%R
  else [0; 0; 1]%R.

Definition next_axis (axis_name : string) : string :=
  if (axis_name =? "x")%string then "y"
  else if (axis_name =? "y")%string then "z"
  else "x".


(** ** Tactics for arrays of a known shape *)

(** Split a list of known length into its entries. *)
Ltac list_of_length H :=
  match type of H with
  | List.length ?l = O =>
      destruct l; [ clear H | discriminate H ]
  | List.length ?l = S _ =>
      destruct l; [ discriminate H | simpl in H; injection H as H; list_of_length H ]
  end.

(** Split a 2-D array of known shape into its entries. *)
Ltac rows_of_shape H :=
  let Hlen := fresh "Hlen" in
  let Hrows := fresh "Hrows" in
  destruct H as [Hlen Hrows];
  list_of_length Hlen;
  repeat match goal with
         | Hr : Forall _ (_ :: _) |- _ =>
             let Hhd := fresh "Hhd" in
             let Htl := fresh "Htl" in
             apply Forall_cons_iff in Hr; destruct Hr as [Hhd Htl];
             list_of_length Hhd
         | Hr : Forall _ [] |- _ => clear Hr
         end.

(** Reduce an equation between arrays to the equations between entries. *)
Ltac entrywise :=
  repeat match goal with
         | |- Ok _ = Ok _ => apply f_equal
         | |- _ :: _ = _ :: _ => apply (f_equal2 cons)
         | |- @nil _ = @nil _ => reflexivity
         end.

(** ** Facts that hold for every kind of number *)

Section GenericFacts.

Context {A : Type} `{Scalar A}.

Lemma RotationMatrix_z (theta : A) :
  RotationMatrix theta "z" =
  Ok [[np_cos (sdiv (smul theta (lit PI)) (lit 180));
       sneg (np_sin (sdiv (smul theta (lit PI)) (lit 180))); lit 0];
      [np_sin (sdiv (smul theta (lit PI)) (lit 180));
       np_cos (sdiv (smul theta (lit PI)) (lit 180)); lit 0];
      [lit 0; lit 0; lit 1]].
Proof. reflexivity. Qed.

Lemma getLocalFrameMatrix_entries (a b c d e f g h i x y z : A) :
  getLocalFrameMatrix [[a; b; c]; [d; e; f]; [g; h; i]] [[x]; [y]; [z]] =
  Ok [[a; b; c; x]; [d; e; f; y]; [g; h; i; z]; [lit 0; lit 0; lit 0; lit 1]].
Proof. reflexivity. Qed.

Lemma local_transform_entries (phi x y z : A) :
  local_transform phi [[x]; [y]; [z]] =
  Ok [[np_cos (sdiv (smul phi (lit PI)) (lit 180));
       sneg (np_sin (sdiv (smul phi (lit PI)) (lit 180))); lit 0; x];
      [np_sin (sdiv (smul phi (lit PI)) (lit 180));
       np_cos (sdiv (smul phi (lit PI)) (lit 180)); lit 0; y];
      [lit 0; lit 0; lit 1; z];
      [lit 0; lit 0; lit 0; lit 1]].
Proof. reflexivity. Qed.

Lemma local_transform_shape (phi x y z : A) :
  exists T, local_transform phi [[x]; [y]; [z]] = Ok T /\ has_shape 4 4 T.
Proof.
  eexists. split; [ apply local_transform_entries | ].
  split; [ reflexivity | repeat constructor ].
Qed.

Lemma map_length_rows (X : Type) (f : list A -> list X) (m : nat) (M : matrix) :
  (forall r, List.length (f r) = m) ->
  Forall (fun r => List.length r = m) (map f M).
Proof.
  intros Hf. induction M as [| r M IH]; simpl; constructor; auto.
Qed.

(** The product of an [n] x [m] by an [m] x [k] array exists and is
    [n] x [k]. *)
Lemma matmul_has_shape (n m k : nat) (M N : matrix) :
  (0 < n)%nat -> (0 < m)%nat ->
  has_shape n m M -> has_shape m k N ->
  exists P, matmul M N = Ok P /\ has_shape n k P.
Proof.
  intros Hn Hm [HM HMr] [HN HNr].
  assert (HcM : ncols M = m).
  { destruct M as [| r M]; simpl in *; [ lia | ].
    apply Forall_cons_iff in HMr. tauto. }
  assert (HcN : ncols N = k).
  { destruct N as [| r N]; simpl in *; [ lia | ].
    apply Forall_cons_iff in HNr. tauto. }
  unfold matmul, nrows. rewrite HcM, HN, Nat.eqb_refl.
  eexists. split; [ reflexivity | ].
  split.
  - rewrite length_map. exact HM.
  - apply map_length_rows. intros r.
    rewrite length_map, length_seq. exact HcN.
Qed.

(** The source computes [T_03] and [T_04] from [T_01] again; the values are
    those of the incremental products. *)
Lemma forward_kinematics_incremental (p0 p1 p2 p3 : A) (rest : list A)
      (L1 L2 L3 L4 : A) :
  forward_kinematics (p0 :: p1 :: p2 :: p3 :: rest) L1 L2 L3 L4 =
  (T_01 <- local_transform p0 [[lit 3]; [lit 2]; [lit 0.0]] ;;
   T_12 <- local_transform p1 [[sadd L1 (smul (lit 2) (lit 0.4))]; [lit 0.0]; [lit 0.0]] ;;
   T_02 <- matmul T_01 T_12 ;;
   T_23 <- local_transform p2 [[sadd L2 (smul (lit 2) (lit 0.4))]; [lit 0.0]; [lit 0.0]] ;;
   T_03 <- matmul T_02 T_23 ;;
   T_34 <- local_transform p3 [[sadd L3 (smul (lit 2) (lit 0.4))]; [lit 0.0]; [lit 0.0]] ;;
   T_04 <- matmul T_03 T_34 ;;
   e <- last_column_top3 T_04 ;;
   Ok (T_01, T_02, T_03, T_04, e)).
Proof. reflexivity. Qed.

Lemma four_angles (Phi : list A) :
  (4 <= List.length Phi)%nat ->
  exists p0 p1 p2 p3 rest, Phi = p0 :: p1 :: p2 :: p3 :: rest.
Proof.
  intros Hlen.
  destruct Phi as [| p0 [| p1 [| p2 [| p3 rest]]]]; simpl in Hlen; try lia.
  now exists p0, p1, p2, p3, rest.
Qed.

Lemma last_column_top3_shape (T : matrix) :
  has_shape 4 4 T -> exists e, last_column_top3 T = Ok e /\ List.length e = 3%nat.
Proof.
  intros HT. rows_of_shape HT.
  eexists. split; reflexivity.
Qed.

(** With four angles every step succeeds, whatever the numbers, and the
    first frame is the local transform of the first joint. *)
Lemma forward_kinematics_first_frame (p0 p1 p2 p3 : A) (rest : list A)
      (L1 L2 L3 L4 : A) :
  exists T_01 T_02 T_03 T_04 e,
    local_transform p0 [[lit 3]; [lit 2]; [lit 0.0]] = Ok T_01 /\
    forward_kinematics (p0 :: p1 :: p2 :: p3 :: rest) L1 L2 L3 L4 =
    Ok (T_01, T_02, T_03, T_04, e).
Proof.
  rewrite forward_kinematics_incremental.
  destruct (local_transform_shape p0 (lit 3) (lit 2) (lit 0.0))
    as (T_01 & E01 & S01).
  destruct (local_transform_shape p1 (sadd L1 (smul (lit 2) (lit 0.4)))
              (lit 0.0) (lit 0.0)) as (T_12 & -> & S12).
  destruct (local_transform_shape p2 (sadd L2 (smul (lit 2) (lit 0.4)))
              (lit 0.0) (lit 0.0)) as (T_23 & -> & S23).
  destruct (local_transform_shape p3 (sadd L3 (smul (lit 2) (lit 0.4)))
              (lit 0.0) (lit 0.0)) as (T_34 & -> & S34).
  rewrite E01. cbn [bind].
  destruct (@matmul_has_shape 4 4 4 T_01 T_12) as (T_02 & -> & S02);
    auto with arith.
  cbn [bind].
  destruct (@matmul_has_shape 4 4 4 T_02 T_23) as (T_03 & -> & S03);
    auto with arith.
  cbn [bind].
  destruct (@matmul_has_shape 4 4 4 T_03 T_34) as (T_04 & -> & S04);
    auto with arith.
  cbn [bind].
  destruct (last_column_top3_shape S04) as (e & -> & _).
  cbn [bind]. exists T_01, T_02, T_03, T_04, e. split; reflexivity.
Qed.

Lemma forward_kinematics_total (Phi : list A) (L1 L2 L3 L4 : A) :
  (4 <= List.length Phi)%nat ->
  exists out, forward_kinematics Phi L1 L2 L3 L4 = Ok out.
Proof.
  intros Hlen.
  destruct (four_angles Phi Hlen) as (p0 & p1 & p2 & p3 & rest & ->).
  destruct (forward_kinematics_first_frame p0 p1 p2 p3 rest L1 L2 L3 L4)
    as (T_01 & T_02 & T_03 & T_04 & e & _ & E).
  eexists. exact E.
Qed.

(** With fewer than four angles the first missing index raises. *)
Lemma forward_kinematics_short (Phi : list A) (L1 L2 L3 L4 : A) :
  (List.length Phi < 4)%nat ->
  forward_kinematics Phi L1 L2 L3 L4 = Err IndexError.
Proof.
  intros Hlen.
  destruct Phi as [| p0 [| p1 [| p2 [| p3 rest]]]]; simpl in Hlen;
    try lia; reflexivity.
Qed.

End GenericFacts.

(** ** Properties of the chain that hold for every kind of number *)

Section ChainProperties.

Context {A : Type} `{Scalar A}.

Lemma getitem_Ok_inv (Phi : list A) (i : nat) (x : A) :
  getitem Phi i = Ok x -> nth_error Phi i = Some x.
Proof.
  unfold getitem. destruct (nth_error Phi i); intros E; now inversion E.
Qed.

(** C1: with the four joint angles read from [Phi], the call returns
    [T_01], [T_02], [T_03], [T_04] where [T_01] is the first local transform
    and [T_02], [T_03], [T_04] are the products, associated to the left, of
    the local transforms [getLocalFrameMatrix (RotationMatrix Phi[i-1] 'z') t_i]
    up to that frame; [T_03] is also the incremental product [T_02 @ T_23]. *)
Theorem forward_kinematics_left_products
        (Phi : list A) (L1 L2 L3 L4 phi1 phi2 phi3 phi4 : A) :
  getitem Phi 0 = Ok phi1 ->
  getitem Phi 1 = Ok phi2 ->
  getitem Phi 2 = Ok phi3 ->
  getitem Phi 3 = Ok phi4 ->
  exists T_01 T_12 T_23 T_34 T_02 T_03 T_04 e,
    local_transform phi1 [[lit 3]; [lit 2]; [lit 0.0]] = Ok T_01 /\
    local_transform phi2
      [[sadd L1 (smul (lit 2) (lit 0.4))]; [lit 0.0]; [lit 0.0]] = Ok T_12 /\
    local_transform phi3
      [[sadd L2 (smul (lit 2) (lit 0.4))]; [lit 0.0]; [lit 0.0]] = Ok T_23 /\
    local_transform phi4
      [[sadd L3 (smul (lit 2) (lit 0.4))]; [lit 0.0]; [lit 0.0]] = Ok T_34 /\
    forward_kinematics Phi L1 L2 L3 L4 = Ok (T_01, T_02, T_03, T_04, e) /\
    product_from T_01 [T_12] = Ok T_02 /\
    product_from T_01 [T_12; T_23] = Ok T_03 /\
    product_from T_01 [T_12; T_23; T_34] = Ok T_04 /\
    matmul T_02 T_23 = Ok T_03.
Proof.
  intros E0 E1 E2 E3.
  apply getitem_Ok_inv in E0, E1, E2, E3.
  destruct Phi as [| p0 [| p1 [| p2 [| p3 rest]]]]; try discriminate.
  simpl in E0, E1, E2, E3.
  injection E0 as ->. injection E1 as ->.
  injection E2 as ->. injection E3 as ->.
  rewrite forward_kinematics_incremental.
  destruct (local_transform_shape phi1 (lit 3) (lit 2) (lit 0.0))
    as (T_01 & E01 & S01).
  destruct (local_transform_shape phi2 (sadd L1 (smul (lit 2) (lit 0.4)))
              (lit 0.0) (lit 0.0)) as (T_12 & E12 & S12).
  destruct (local_transform_shape phi3 (sadd L2 (smul (lit 2) (lit 0.4)))
              (lit 0.0) (lit 0.0)) as (T_23 & E23 & S23).
  destruct (local_transform_shape phi4 (sadd L3 (smul (lit 2) (lit 0.4)))
              (lit 0.0) (lit 0.0)) as (T_34 & E34 & S34).
  destruct (@matmul_has_shape _ _ 4 4 4 T_01 T_12) as (T_02 & E02 & S02);
    auto with arith.
  destruct (@matmul_has_shape _ _ 4 4 4 T_02 T_23) as (T_03 & E03 & S03);
    auto with arith.
  destruct (@matmul_has_shape _ _ 4 4 4 T_03 T_34) as (T_04 & E04 & S04);
    auto with arith.
  destruct (last_column_top3_shape S04) as (e & Ee & _).
  exists T_01, T_12, T_23, T_34, T_02, T_03, T_04, e.
  rewrite E01, E12, E23, E34. cbn [bind].
  rewrite E02. cbn [bind]. rewrite E03. cbn [bind].
  rewrite E04. cbn [bind]. rewrite Ee. cbn [bind].
  unfold product_from. cbn [fold_left bind].
  rewrite E02. cbn [bind]. rewrite E03. cbn [bind].
  repeat split; assumption.
Qed.

(** C4, as the code has it: for an axis name other than 'x', 'y' and 'z'
    no branch assigns [rotation_matrix], and [RotationMatrix] raises
    [UnboundLocalError] at its [return]; it returns no matrix. *)
Theorem RotationMatrix_unknown_axis (theta : A) (axis_name : string) :
  ~ In axis_name ["x"; "y"; "z"]%string ->
  RotationMatrix theta axis_name = Err (UnboundLocalError "rotation_matrix").
Proof.
  intros Hnot. unfold RotationMatrix.
  assert (Hx : (axis_name =? "x")%string = false).
  { apply String.eqb_neq. intros ->. apply Hnot. simpl. auto. }
  assert (Hy : (axis_name =? "y")%string = false).
  { apply String.eqb_neq. intros ->. apply Hnot. simpl. auto. }
  assert (Hz : (axis_name =? "z")%string = false).
  { apply String.eqb_neq. intros ->. apply Hnot. simpl. auto. }
  rewrite Hx, Hy, Hz. reflexivity.
Qed.

(** C7, as the code has it: nothing compares the number of angles with the
    number of link lengths.  A call with other than four link lengths is
    refused by Python with [TypeError] before the body runs; with four link
    lengths, fewer than four angles raise [IndexError], and four or more
    angles give a result that depends on the first four only.
    [DimensionMismatch] is never raised. *)
Theorem forward_kinematics_call_lengths (Phi Ls : list A) :
  forward_kinematics_call Phi Ls <> Err DimensionMismatch /\
  (List.length Ls <> 4%nat ->
   forward_kinematics_call Phi Ls = Err TypeError) /\
  (List.length Ls = 4%nat -> (List.length Phi < 4)%nat ->
   forward_kinematics_call Phi Ls = Err IndexError) /\
  (List.length Ls = 4%nat -> (4 <= List.length Phi)%nat ->
   exists out, forward_kinematics_call Phi Ls = Ok out /\
               forward_kinematics_call (firstn 4 Phi) Ls = Ok out).
Proof.
  assert (Hwrong : List.length Ls <> 4%nat ->
                   forward_kinematics_call Phi Ls = Err TypeError).
  { intros Hlen.
    destruct Ls as [| L1 [| L2 [| L3 [| L4 [| L5 Ls]]]]];
      try reflexivity.
    now elim Hlen. }
  assert (Hshort : List.length Ls = 4%nat -> (List.length Phi < 4)%nat ->
                   forward_kinematics_call Phi Ls = Err IndexError).
  { intros Hlen HPhi.
    destruct Ls as [| L1 [| L2 [| L3 [| L4 [| L5 Ls]]]]]; try discriminate Hlen.
    apply forward_kinematics_short. exact HPhi. }
  assert (Hlong : List.length Ls = 4%nat -> (4 <= List.length Phi)%nat ->
            exists out, forward_kinematics_call Phi Ls = Ok out /\
                        forward_kinematics_call (firstn 4 Phi) Ls = Ok out).
  { intros Hlen HPhi.
    destruct Ls as [| L1 [| L2 [| L3 [| L4 [| L5 Ls]]]]]; try discriminate Hlen.
    unfold forward_kinematics_call.
    destruct (forward_kinematics_total Phi L1 L2 L3 L4 HPhi) as [out Eout].
    exists out. split; [ exact Eout | ].
    destruct (four_angles Phi HPhi) as (p0 & p1 & p2 & p3 & rest & ->).
    rewrite <- Eout. reflexivity. }
  repeat split; try assumption.
  intros Hc.
  destruct (Nat.eq_dec (List.length Ls) 4) as [Hlen | Hlen].
  - destruct (Nat.lt_ge_cases (List.length Phi) 4) as [HPhi | HPhi].
    + rewrite (Hshort Hlen HPhi) in Hc. discriminate Hc.
    + destruct (Hlong Hlen HPhi) as (out & Eout & _).
      rewrite Eout in Hc. discriminate Hc.
  - rewrite (Hwrong Hlen) in Hc. discriminate Hc.
Qed.

(** C9: the last link length does not enter the computation: two calls that
    differ in [L4] only have the same outcome, the four transforms and the
    end-effector position included. *)
Theorem forward_kinematics_ignores_L4 (Phi : list A) (L1 L2 L3 L4 L4' : A) :
  forward_kinematics Phi L1 L2 L3 L4 = forward_kinematics Phi L1 L2 L3 L4'.
Proof. reflexivity. Qed.

End ChainProperties.

(** ** Properties over exact real arithmetic *)

Section RealArithmetic.

Local Open Scope R_scope.

Lemma cos_sin_unit (x : R) : cos x * cos x + sin x * sin x = 1.
Proof.
  pose proof (sin2_cos2 x) as Hx. unfold Rsqr in Hx. lra.
Qed.

Lemma zero_degrees : 0 * PI / 180 = 0.
Proof. lra. Qed.

Lemma getLocalFrameMatrix_bottom_row (A : Type) `{Scalar A}
      (R_ij t_ij T : list (list A)) :
  getLocalFrameMatrix R_ij t_ij = Ok T ->
  last T [] = [lit 0; lit 0; lit 0; lit 1].
Proof.
  unfold getLocalFrameMatrix, np_block.
  destruct (hstack R_ij t_ij) as [top | err]; cbn; [ | discriminate ].
  unfold vstack.
  destruct (ncols top =? ncols [[lit 0; lit 0; lit 0; lit 1]])%nat;
    cbn; [ | discriminate ].
  intros E. injection E as <-. apply last_last.
Qed.

Lemma getLocalFrameMatrix_shape (A : Type) `{Scalar A}
      (R_ij t_ij : list (list A)) :
  has_shape 3 3 R_ij -> has_shape 3 1 t_ij ->
  exists T, getLocalFrameMatrix R_ij t_ij = Ok T /\ has_shape 4 4 T.
Proof.
  intros HR Ht. rows_of_shape HR. rows_of_shape Ht.
  eexists. split; [ apply getLocalFrameMatrix_entries | ].
  split; [ reflexivity | repeat constructor ].
Qed.

(** The bottom row [0, 0, 0, 1] is kept by the product of two 4 x 4
    arrays. *)
Lemma matmul_bottom_row (M N : list (list R)) :
  has_shape 4 4 M -> has_shape 4 4 N ->
  last M [] = [0; 0; 0; 1] -> last N [] = [0; 0; 0; 1] ->
  exists P, matmul M N = Ok P /\ has_shape 4 4 P /\ last P [] = [0; 0; 0; 1].
Proof.
  intros HM HN LM LN.
  rows_of_shape HM. rows_of_shape HN.
  cbn in LM, LN. injection LM as -> -> -> ->. injection LN as -> -> -> ->.
  eexists. split; [ reflexivity | ].
  split; [ split; [ reflexivity | repeat constructor ] | ].
  cbn. entrywise; ring.
Qed.

Lemma matmul_planar (M N : list (list R)) :
  planar_transform M -> planar_transform N ->
  exists P, matmul M N = Ok P /\ planar_transform P.
Proof.
  intros (m0 & m1 & -> & Hm0 & Hm1) (n0 & n1 & -> & Hn0 & Hn1).
  list_of_length Hm0. list_of_length Hm1.
  list_of_length Hn0. list_of_length Hn1.
  eexists. split; [ reflexivity | ].
  unfold planar_transform. cbn.
  match goal with
  | |- exists r0 r1, [?a; ?b; _; _] = _ /\ _ => exists a, b
  end.
  split; [ | split; reflexivity ].
  entrywise; ring.
Qed.

Lemma local_transform_planar (phi x y : R) :
  exists T, local_transform phi [[x]; [y]; [0.0]] = Ok T /\ planar_transform T.
Proof.
  eexists. split; [ apply local_transform_entries | ].
  unfold planar_transform. cbn.
  match goal with
  | |- exists r0 r1, [?a; ?b; _; _] = _ /\ _ => exists a, b
  end.
  split; [ | split; reflexivity ].
  entrywise; lra.
Qed.

Lemma planar_transform_rows (T : list (list R)) :
  planar_transform T ->
  has_shape 4 4 T /\
  nth_error T 2 = Some [0; 0; 1; 0] /\ last T [] = [0; 0; 0; 1].
Proof.
  intros (r0 & r1 & -> & H0 & H1).
  split; [ | split; reflexivity ].
  split; [ reflexivity | ].
  repeat constructor; assumption.
Qed.

Lemma last_column_top3_planar (T : list (list R)) :
  planar_transform T ->
  exists x y, last_column_top3 T = Ok [x; y; 0].
Proof.
  intros (r0 & r1 & -> & H0 & H1).
  list_of_length H0. list_of_length H1.
  eexists. eexists. reflexivity.
Qed.

(** Every frame returned by [forward_kinematics] is planar, and so is the
    end-effector position. *)
Lemma forward_kinematics_planar_frames (Phi : list R) (L1 L2 L3 L4 : R) :
  (4 <= List.length Phi)%nat ->
  exists out,
    forward_kinematics Phi L1 L2 L3 L4 = Ok out /\
    Forall planar_transform (world_frames out) /\
    exists x y, end_effector out = [x; y; 0].
Proof.
  intros Hlen.
  destruct (four_angles Phi Hlen) as (p0 & p1 & p2 & p3 & rest & ->).
  rewrite forward_kinematics_incremental.
  destruct (local_transform_planar p0 3 2) as (T_01 & E01 & P01).
  destruct (local_transform_planar p1 (L1 + 2 * 0.4) 0.0) as (T_12 & E12 & P12).
  destruct (local_transform_planar p2 (L2 + 2 * 0.4) 0.0) as (T_23 & E23 & P23).
  destruct (local_transform_planar p3 (L3 + 2 * 0.4) 0.0) as (T_34 & E34 & P34).
  destruct (matmul_planar P01 P12) as (T_02 & E02 & P02).
  destruct (matmul_planar P02 P23) as (T_03 & E03 & P03).
  destruct (matmul_planar P03 P34) as (T_04 & E04 & P04).
  destruct (last_column_top3_planar P04) as (x & y & Ee).
  exists (T_01, T_02, T_03, T_04, [x; y; 0]).
  cbn [lit R_Scalar sadd smul].
  rewrite E01. cbn [bind]. rewrite E12. cbn [bind].
  rewrite E02. cbn [bind]. rewrite E23. cbn [bind].
  rewrite E03. cbn [bind]. rewrite E34. cbn [bind].
  rewrite E04. cbn [bind]. rewrite Ee. cbn [bind].
  split; [ reflexivity | ].
  split; [ repeat constructor; assumption | ].
  exists x, y. reflexivity.
Qed.

(** C2, for finite link lengths in exact real arithmetic: with all joint
    angles 0 (and at least the four angles the chain reads), the
    end-effector position is the base offset (3, 2, 0) moved along x by the
    three link terms [L + 2 * r1], with [r1 = 0.4].  (An infinite link
    length is not refused and gives NaN entries instead, see
    [zero_angles_infinite_length_counterexample].) *)
Theorem zero_angles_end_effector (Phi : list R) (L1 L2 L3 L4 : R) :
  (4 <= List.length Phi)%nat ->
  Forall (fun phi => phi = 0) Phi ->
  exists out,
    forward_kinematics Phi L1 L2 L3 L4 = Ok out /\
    end_effector out =
      [3 + (L1 + 2 * 0.4) + (L2 + 2 * 0.4) + (L3 + 2 * 0.4); 2; 0].
Proof.
  intros Hlen Hzero.
  destruct (four_angles Phi Hlen) as (p0 & p1 & p2 & p3 & rest & ->).
  repeat match goal with
         | Hz : Forall _ (_ :: _) |- _ =>
             apply Forall_cons_iff in Hz; destruct Hz as [-> Hz]
         end.
  rewrite forward_kinematics_incremental.
  rewrite !local_transform_entries.
  cbn [lit sadd smul sdiv sneg np_cos np_sin R_Scalar].
  rewrite zero_degrees, cos_0, sin_0.
  eexists. split; [ reflexivity | ].
  cbn. entrywise; lra.
Qed.

(** C3: for each of the axes x, y and z, [RotationMatrix theta axis] is a
    matrix [R] with [R @ transpose R] the identity and determinant 1. *)
Theorem RotationMatrix_orthonormal (theta : R) (axis_name : string) :
  In axis_name ["x"; "y"; "z"]%string ->
  exists Rm,
    RotationMatrix theta axis_name = Ok Rm /\
    matmul Rm (transpose Rm) = Ok (identity 3) /\
    det 3 Rm = 1.
Proof.
  intros Hin.
  pose proof (cos_sin_unit (theta * PI / 180)) as Hunit.
  simpl in Hin.
  destruct Hin as [<- | [<- | [<- | []]]];
    (eexists; split; [ reflexivity | ]);
    cbn;
    set (c := cos (theta * PI / 180)) in *;
    set (s := sin (theta * PI / 180)) in *;
    (split; [ entrywise; nra | nra ]).
Qed.

(** C5: for a 3 x 3 array [Rm] and a 3 x 1 array [t], the transform
    [getLocalFrameMatrix Rm t] sends the homogeneous origin (0, 0, 0, 1) to
    [t] with 1 appended. *)
Theorem getLocalFrameMatrix_origin (Rm t : list (list R)) :
  has_shape 3 3 Rm -> has_shape 3 1 t ->
  exists T,
    getLocalFrameMatrix Rm t = Ok T /\
    matmul T (column [0; 0; 0; 1]) = Ok (t ++ column [1]).
Proof.
  intros HR Ht. rows_of_shape HR. rows_of_shape Ht.
  eexists. split; [ apply getLocalFrameMatrix_entries | ].
  cbn. entrywise; ring.
Qed.

(** C6, as the code has it: every transform that [getLocalFrameMatrix]
    produces has bottom row [0, 0, 0, 1], whatever the kind of number and
    the values (and it produces one for a 3 x 3 rotation block and a 3 x 1
    translation).  For finite values in exact real arithmetic, the product
    of two 4 x 4 arrays with that bottom row has it again, and the four
    world transforms returned by [forward_kinematics] have it.  (With an
    infinite link length or a NaN angle the products do not keep the row,
    see [bottom_row_infinite_length_counterexample].) *)
Theorem bottom_row_invariant :
  (forall (A : Type) (SA : Scalar A) (Rm t T : list (list A)),
      getLocalFrameMatrix Rm t = Ok T ->
      last T [] = [lit 0; lit 0; lit 0; lit 1]) /\
  (forall (A : Type) (SA : Scalar A) (Rm t : list (list A)),
      has_shape 3 3 Rm -> has_shape 3 1 t ->
      exists T, getLocalFrameMatrix Rm t = Ok T /\ has_shape 4 4 T) /\
  (forall M N : list (list R),
      has_shape 4 4 M -> has_shape 4 4 N ->
      last M [] = [0; 0; 0; 1] -> last N [] = [0; 0; 0; 1] ->
      exists P, matmul M N = Ok P /\ last P [] = [0; 0; 0; 1]) /\
  (forall (Phi : list R) (L1 L2 L3 L4 : R),
      (4 <= List.length Phi)%nat ->
      exists out,
        forward_kinematics Phi L1 L2 L3 L4 = Ok out /\
        Forall (fun T => last T [] = [0; 0; 0; 1]) (world_frames out)).
Proof.
  split; [ | split; [ | split ] ].
  - intros A SA Rm t T E.
    exact (getLocalFrameMatrix_bottom_row Rm t E).
  - intros A SA Rm t. apply getLocalFrameMatrix_shape.
  - intros M N HM HN LM LN.
    destruct (matmul_bottom_row HM HN LM LN) as (P & E & _ & LP).
    exists P. split; assumption.
  - intros Phi L1 L2 L3 L4 Hlen.
    destruct (forward_kinematics_planar_frames Phi L1 L2 L3 L4 Hlen)
      as (out & E & Hplanar & _).
    exists out. split; [ exact E | ].
    eapply Forall_impl; [ | exact Hplanar ].
    intros T HT. apply planar_transform_rows in HT. tauto.
Qed.

(** C10, for finite angles and link lengths in exact real arithmetic: the
    arm stays in the plane: in each of the four world transforms returned
    by [forward_kinematics] the z entry of the translation block is 0, and
    so is the z entry of the end-effector position.  (With an infinite link
    length these entries are NaN, see
    [planar_infinite_length_counterexample].) *)
Theorem forward_kinematics_planar (Phi : list R) (L1 L2 L3 L4 : R) :
  (4 <= List.length Phi)%nat ->
  exists out,
    forward_kinematics Phi L1 L2 L3 L4 = Ok out /\
    Forall (fun T => nth_error (translation_of T) 2 = Some 0)
           (world_frames out) /\
    nth_error (end_effector out) 2 = Some 0.
Proof.
  intros Hlen.
  destruct (forward_kinematics_planar_frames Phi L1 L2 L3 L4 Hlen)
    as (out & E & Hplanar & x & y & Ee).
  exists out. split; [ exact E | ]. split.
  - eapply Forall_impl; [ | exact Hplanar ].
    intros T (r0 & r1 & -> & _ & _). reflexivity.
  - rewrite Ee. reflexivity.
Qed.

End RealArithmetic.

(** ** Non-finite inputs *)

Section NonFiniteInputs.

Lemma Rzero_0 : Rzero 0 = true.
Proof.
  unfold Rzero.
  destruct (Req_dec_T 0 0) as [_ | Hne]; [ reflexivity | now elim Hne ].
Qed.

Lemma Rzero_nonzero (x : R) : x <> 0%R -> Rzero x = false.
Proof.
  intros Hx. unfold Rzero.
  destruct (Req_dec_T x 0) as [He | _]; [ now elim Hx | reflexivity ].
Qed.

Lemma Rneg_nonneg (x : R) : (0 <= x)%R -> Rneg x = false.
Proof.
  intros Hx. unfold Rneg.
  destruct (Rlt_dec x 0) as [Hlt | _]; [ lra | reflexivity ].
Qed.

Lemma Rzero_180 : Rzero 180 = false.
Proof. apply Rzero_nonzero. lra. Qed.

Lemma Rzero_1 : Rzero 1 = false.
Proof. apply Rzero_nonzero. lra. Qed.

Lemma Rneg_1 : Rneg 1 = false.
Proof. apply Rneg_nonneg. lra. Qed.

Lemma nonfinite_angle_trig (phi : npfloat) :
  is_finite phi = false ->
  np_cos (sdiv (smul phi (lit PI)) (lit 180)) = NaN /\
  np_sin (sdiv (smul phi (lit PI)) (lit 180)) = NaN.
Proof.
  destruct phi as [r | s | ]; intros Hnf; [ discriminate Hnf | | ].
  - cbn. destruct (Rzero PI); cbn; split; reflexivity.
  - split; reflexivity.
Qed.

(** C8, as the code has it: [forward_kinematics] checks no value for
    finiteness.  It never raises [NonFiniteValue]; with at least four angles
    it returns its five results whatever the angles and lengths are, NaN and
    infinities included; and a NaN or infinite first angle makes the
    rotation entries of the returned [T_01] NaN. *)
Theorem forward_kinematics_no_finiteness_check
        (Phi : list npfloat) (L1 L2 L3 L4 : npfloat) :
  forward_kinematics Phi L1 L2 L3 L4 <> Err NonFiniteValue /\
  ((4 <= List.length Phi)%nat ->
   exists out, forward_kinematics Phi L1 L2 L3 L4 = Ok out) /\
  ((4 <= List.length Phi)%nat ->
   forall phi1, nth_error Phi 0 = Some phi1 -> is_finite phi1 = false ->
   exists T_01 T_02 T_03 T_04 e,
     forward_kinematics Phi L1 L2 L3 L4 = Ok (T_01, T_02, T_03, T_04, e) /\
     firstn 2 T_01 = [[NaN; NaN; Fin 0; Fin 3]; [NaN; NaN; Fin 0; Fin 2]]).
Proof.
  split; [ | split ].
  - intros Hc.
    destruct (Nat.lt_ge_cases (List.length Phi) 4) as [Hlen | Hlen].
    + rewrite (forward_kinematics_short Phi L1 L2 L3 L4 Hlen) in Hc.
      discriminate Hc.
    + destruct (forward_kinematics_total Phi L1 L2 L3 L4 Hlen) as [out E].
      rewrite E in Hc. discriminate Hc.
  - apply forward_kinematics_total.
  - intros Hlen phi1 Hphi Hnf.
    destruct (four_angles Phi Hlen) as (p0 & p1 & p2 & p3 & rest & ->).
    simpl in Hphi. injection Hphi as ->.
    destruct (forward_kinematics_first_frame phi1 p1 p2 p3 rest L1 L2 L3 L4)
      as (T_01 & T_02 & T_03 & T_04 & e & E01 & E).
    exists T_01, T_02, T_03, T_04, e. split; [ exact E | ].
    rewrite local_transform_entries in E01.
    destruct (nonfinite_angle_trig phi1 Hnf) as [Hcos Hsin].
    rewrite Hcos, Hsin in E01. injection E01 as <-. reflexivity.
Qed.

End NonFiniteInputs.

(** ** The claims at concrete inputs *)

Section Instances.

Local Open Scope R_scope.

Example matmul_2x2 :
  matmul [[1; 2]; [3; 4]] [[0; 1]; [1; 0]] = Ok [[2; 1]; [4; 3]].
Proof. cbn. entrywise; ring. Qed.

Example matmul_inner_dimensions :
  matmul [[1; 2]; [3; 4]] [[1; 2; 3]] = Err ValueError.
Proof. reflexivity. Qed.

Example transpose_2x3 :
  transpose [[1; 2; 3]; [4; 5; 6]] = [[1; 4]; [2; 5]; [3; 6]].
Proof. reflexivity. Qed.

Example det_2x2 : det 2 [[1; 2]; [3; 4]] = -2.
Proof. cbn. ring. Qed.

Example det_3x3 : det 3 [[2; 0; 1]; [1; 3; 2]; [1; 1; 1]] = 0.
Proof. cbn. ring. Qed.

Example np_block_row_mismatch :
  getLocalFrameMatrix [[1; 0; 0]; [0; 1; 0]; [0; 0; 1]] [[3]; [2]]
  = Err ValueError.
Proof. reflexivity. Qed.

Example RotationMatrix_x (theta : R) :
  RotationMatrix theta "x" =
  Ok [[1; 0; 0];
      [0; cos (theta * PI / 180); - sin (theta * PI / 180)];
      [0; sin (theta * PI / 180); cos (theta * PI / 180)]].
Proof. reflexivity. Qed.

Example forward_kinematics_three_angles :
  forward_kinematics [30; -10; 0] 5 8 3 0 = Err IndexError.
Proof. reflexivity. Qed.

Lemma forward_kinematics_left_products_witness :
  getitem [30; -10; 0; 2] 0 = Ok 30 /\
  getitem [30; -10; 0; 2] 1 = Ok (-10) /\
  getitem [30; -10; 0; 2] 2 = Ok 0 /\
  getitem [30; -10; 0; 2] 3 = Ok 2 /\
  exists (T_01 T_12 T_23 T_34 T_02 T_03 T_04 : list (list R)) (e : list R),
    local_transform 30 [[3]; [2]; [0.0]] = Ok T_01 /\
    local_transform (-10) [[5 + 2 * 0.4]; [0.0]; [0.0]] = Ok T_12 /\
    local_transform 0 [[8 + 2 * 0.4]; [0.0]; [0.0]] = Ok T_23 /\
    local_transform 2 [[3 + 2 * 0.4]; [0.0]; [0.0]] = Ok T_34 /\
    forward_kinematics [30; -10; 0; 2] 5 8 3 0
    = Ok (T_01, T_02, T_03, T_04, e) /\
    product_from T_01 [T_12] = Ok T_02 /\
    product_from T_01 [T_12; T_23] = Ok T_03 /\
    product_from T_01 [T_12; T_23; T_34] = Ok T_04 /\
    matmul T_02 T_23 = Ok T_03.
Proof.
  repeat (split; [ reflexivity | ]).
  exact (@forward_kinematics_left_products R R_Scalar
           [30; -10; 0; 2] 5 8 3 0 30 (-10) 0 2
           eq_refl eq_refl eq_refl eq_refl).
Defined.

Lemma zero_angles_end_effector_witness :
  (4 <= List.length [0; 0; 0; 0]%R)%nat /\
  Forall (fun phi => phi = 0) [0; 0; 0; 0] /\
  exists out,
    forward_kinematics [0; 0; 0; 0] 5 8 3 0 = Ok out /\
    end_effector out = [3 + (5 + 2 * 0.4) + (8 + 2 * 0.4) + (3 + 2 * 0.4); 2; 0].
Proof.
  assert (Hlen : (4 <= List.length [0; 0; 0; 0]%R)%nat) by (simpl; lia).
  assert (Hzero : Forall (fun phi => phi = 0) [0; 0; 0; 0])
    by (repeat constructor).
  split; [ exact Hlen | ]. split; [ exact Hzero | ].
  exact (@zero_angles_end_effector [0; 0; 0; 0] 5 8 3 0 Hlen Hzero).
Defined.

Lemma RotationMatrix_orthonormal_witness :
  In "y"%string ["x"; "y"; "z"]%string /\
  exists Rm,
    RotationMatrix 30 "y" = Ok Rm /\
    matmul Rm (transpose Rm) = Ok (identity 3) /\
    det 3 Rm = 1.
Proof.
  assert (Hin : In "y"%string ["x"; "y"; "z"]%string) by (simpl; auto).
  split; [ exact Hin | ].
  exact (@RotationMatrix_orthonormal 30 "y"%string Hin).
Defined.

Lemma RotationMatrix_unknown_axis_witness :
  ~ In "w"%string ["x"; "y"; "z"]%string /\
  RotationMatrix 30 "w" = Err (UnboundLocalError "rotation_matrix").
Proof.
  assert (Hnot : ~ In "w"%string ["x"; "y"; "z"]%string).
  { simpl. intros [E | [E | [E | []]]]; discriminate E. }
  split; [ exact Hnot | ].
  exact (@RotationMatrix_unknown_axis R R_Scalar 30 "w" Hnot).
Defined.

(** C4 as stated fails: for the axis name 'w' the error is not
    [InvalidAxis]. *)
Lemma RotationMatrix_InvalidAxis_counterexample :
  ~ In "w"%string ["x"; "y"; "z"]%string /\
  RotationMatrix 30 "w" <> Err InvalidAxis.
Proof.
  split.
  - simpl. intros [E | [E | [E | []]]]; discriminate E.
  - cbn. discriminate.
Qed.

Lemma getLocalFrameMatrix_origin_witness :
  has_shape 3 3 [[0; -1; 0]; [1; 0; 0]; [0; 0; 1]] /\
  has_shape 3 1 [[3]; [2]; [0]] /\
  exists T,
    getLocalFrameMatrix [[0; -1; 0]; [1; 0; 0]; [0; 0; 1]] [[3]; [2]; [0]]
    = Ok T /\
    matmul T (column [0; 0; 0; 1]) = Ok ([[3]; [2]; [0]] ++ column [1]).
Proof.
  assert (HR : has_shape 3 3 [[0; -1; 0]; [1; 0; 0]; [0; 0; 1]])
    by (split; [ reflexivity | repeat constructor ]).
  assert (Ht : has_shape 3 1 [[3]; [2]; [0]])
    by (split; [ reflexivity | repeat constructor ]).
  split; [ exact HR | ]. split; [ exact Ht | ].
  exact (@getLocalFrameMatrix_origin _ _ HR Ht).
Defined.

Lemma bottom_row_invariant_witness :
  (4 <= List.length [30; -10; 0; 2]%R)%nat /\
  exists out,
    forward_kinematics [30; -10; 0; 2] 5 8 3 0 = Ok out /\
    Forall (fun T => last T [] = [0; 0; 0; 1]) (world_frames out).
Proof.
  assert (Hlen : (4 <= List.length [30; -10; 0; 2]%R)%nat) by (simpl; lia).
  split; [ exact Hlen | ].
  exact (proj2 (proj2 (proj2 bottom_row_invariant))
               [30; -10; 0; 2] 5 8 3 0 Hlen).
Defined.

Lemma forward_kinematics_call_lengths_witness :
  List.length [5; 8; 3; 0]%R = 4%nat /\
  (4 <= List.length [30; -10; 0; 2; 45]%R)%nat /\
  exists out,
    forward_kinematics_call [30; -10; 0; 2; 45] [5; 8; 3; 0] = Ok out /\
    forward_kinematics_call (firstn 4 [30; -10; 0; 2; 45]) [5; 8; 3; 0]
    = Ok out.
Proof.
  assert (HLs : List.length [5; 8; 3; 0]%R = 4%nat) by reflexivity.
  assert (HPhi : (4 <= List.length [30; -10; 0; 2; 45]%R)%nat) by (simpl; lia).
  split; [ exact HLs | ]. split; [ exact HPhi | ].
  exact (proj2 (proj2 (proj2
           (@forward_kinematics_call_lengths R R_Scalar
              [30; -10; 0; 2; 45] [5; 8; 3; 0]))) HLs HPhi).
Defined.

(** C7 as stated fails: five angles with four link lengths give a result,
    and four angles with three link lengths give [TypeError]. *)
Lemma DimensionMismatch_counterexample :
  List.length [30; -10; 0; 2; 45]%R <> List.length [5; 8; 3; 0]%R /\
  (exists out,
      forward_kinematics_call [30; -10; 0; 2; 45] [5; 8; 3; 0] = Ok out) /\
  List.length [30; -10; 0; 2]%R <> List.length [5; 8; 3]%R /\
  forward_kinematics_call [30; -10; 0; 2] [5; 8; 3] = Err TypeError.
Proof.
  split; [ simpl; lia | ].
  split; [ | split; [ simpl; lia | reflexivity ] ].
  unfold forward_kinematics_call.
  apply forward_kinematics_total. simpl; lia.
Qed.

Lemma forward_kinematics_no_finiteness_check_witness :
  (4 <= List.length [NaN; Fin 0; Fin 0; Fin 0])%nat /\
  is_finite NaN = false /\
  exists T_01 T_02 T_03 T_04 e,
    forward_kinematics [NaN; Fin 0; Fin 0; Fin 0] (Fin 5) (Fin 8) (Fin 3) (Fin 0)
    = Ok (T_01, T_02, T_03, T_04, e) /\
    firstn 2 T_01 = [[NaN; NaN; Fin 0; Fin 3]; [NaN; NaN; Fin 0; Fin 2]].
Proof.
  assert (Hlen : (4 <= List.length [NaN; Fin 0; Fin 0; Fin 0])%nat)
    by (simpl; lia).
  split; [ exact Hlen | ]. split; [ reflexivity | ].
  exact (proj2 (proj2 (forward_kinematics_no_finiteness_check
                         [NaN; Fin 0; Fin 0; Fin 0]
                         (Fin 5) (Fin 8) (Fin 3) (Fin 0)))
               Hlen NaN eq_refl eq_refl).
Defined.

(** C8 as stated fails: with a NaN first angle, and with an infinite link
    length, the call returns its results. *)
Lemma NonFiniteValue_counterexample :
  is_finite NaN = false /\
  (exists out,
      forward_kinematics [NaN; Fin 0; Fin 0; Fin 0]
                         (Fin 5) (Fin 8) (Fin 3) (Fin 0) = Ok out) /\
  is_finite (Inf false) = false /\
  (exists out,
      forward_kinematics [Fin 30; Fin (-10); Fin 0; Fin 2]
                         (Inf false) (Fin 8) (Fin 3) (Fin 0) = Ok out).
Proof.
  split; [ reflexivity | ].
  split; [ apply forward_kinematics_total; simpl; lia | ].
  split; [ reflexivity | ].
  apply forward_kinematics_total; simpl; lia.
Qed.

(** Evaluate float-like arithmetic at angle 0. *)
Ltac npfloat_eval :=
  repeat (cbn;
          first [ rewrite Rzero_180 | rewrite zero_degrees | rewrite sin_0
                | rewrite cos_0 | rewrite Rzero_0 | rewrite Rzero_1
                | rewrite Rneg_1 ]).

(** C2 as stated fails for an infinite link length: with all angles 0 and
    [L1] = +inf the call returns, and the end-effector position is
    (NaN, NaN, NaN), not (+inf, 2, 0). *)
Lemma zero_angles_infinite_length_counterexample :
  Forall (fun phi => phi = Fin 0) [Fin 0; Fin 0; Fin 0; Fin 0] /\
  exists out,
    forward_kinematics [Fin 0; Fin 0; Fin 0; Fin 0]
                       (Inf false) (Fin 8) (Fin 3) (Fin 0) = Ok out /\
    end_effector out = [NaN; NaN; NaN] /\
    end_effector out <>
    [sadd (sadd (sadd (lit 3) (sadd (Inf false) (smul (lit 2) (lit 0.4))))
                (sadd (Fin 8) (smul (lit 2) (lit 0.4))))
          (sadd (Fin 3) (smul (lit 2) (lit 0.4)));
     lit 2; lit 0].
Proof.
  split; [ repeat constructor | ].
  eexists. split; [ reflexivity | ].
  assert (He : forall e : list npfloat,
             e = [NaN; NaN; NaN] ->
             e = [NaN; NaN; NaN] /\
             e <> [sadd (sadd (sadd (lit 3)
                                    (sadd (Inf false) (smul (lit 2) (lit 0.4))))
                              (sadd (Fin 8) (smul (lit 2) (lit 0.4))))
                        (sadd (Fin 3) (smul (lit 2) (lit 0.4)));
                   lit 2; lit 0]).
  { intros e ->. split; [ reflexivity | ]. cbn. discriminate. }
  apply He. npfloat_eval. reflexivity.
Qed.

(** C6 as stated fails for an infinite link length: with [L1] = +inf the
    call returns, and the last entry of the bottom row of [T_02] is NaN,
    not 1. *)
Lemma bottom_row_infinite_length_counterexample :
  exists T_01 T_02 T_03 T_04 e,
    forward_kinematics [Fin 30; Fin (-10); Fin 0; Fin 2]
                       (Inf false) (Fin 8) (Fin 3) (Fin 0)
    = Ok (T_01, T_02, T_03, T_04, e) /\
    nth_error (last T_02 []) 3 = Some NaN /\
    last T_02 [] <> [Fin 0; Fin 0; Fin 0; Fin 1].
Proof.
  do 5 eexists. split; [ reflexivity | ].
  assert (Hlast : forall r : list npfloat,
             nth_error r 3 = Some NaN ->
             nth_error r 3 = Some NaN /\ r <> [Fin 0; Fin 0; Fin 0; Fin 1]).
  { intros r Hr. split; [ exact Hr | ]. intros ->. discriminate Hr. }
  apply Hlast. cbn. rewrite Rzero_0. reflexivity.
Qed.

(** C10 as stated fails for an infinite link length: with [L1] = +inf the
    call returns, and the z entry of the translation block of [T_02] is
    NaN, not 0. *)
Lemma planar_infinite_length_counterexample :
  exists T_01 T_02 T_03 T_04 e,
    forward_kinematics [Fin 30; Fin (-10); Fin 0; Fin 2]
                       (Inf false) (Fin 8) (Fin 3) (Fin 0)
    = Ok (T_01, T_02, T_03, T_04, e) /\
    nth_error (translation_of T_02) 2 = Some NaN.
Proof.
  do 5 eexists. split; [ reflexivity | ].
  cbn. rewrite Rzero_0. reflexivity.
Qed.

Lemma forward_kinematics_planar_witness :
  (4 <= List.length [30; -10; 0; 2]%R)%nat /\
  exists out,
    forward_kinematics [30; -10; 0; 2] 5 8 3 0 = Ok out /\
    Forall (fun T => nth_error (translation_of T) 2 = Some 0)
           (world_frames out) /\
    nth_error (end_effector out) 2 = Some 0.
Proof.
  assert (Hlen : (4 <= List.length [30; -10; 0; 2]%R)%nat) by (simpl; lia).
  split; [ exact Hlen | ].
  exact (@forward_kinematics_planar [30; -10; 0; 2] 5 8 3 0 Hlen).
Defined.

End Instances.

(** ** Further properties of [RotationMatrix] *)

Section RotationProperties.

Local Open Scope R_scope.


Lemma radians_opp (a : R) : - a * PI / 180 = - (a * PI / 180).
Proof. lra. Qed.


(** Cases of a valid axis name. *)
Ltac axis_cases Hin :=
  simpl in Hin; destruct Hin as [<- | [<- | [<- | []]]].


(** X1: a rotation by 0 degrees about x, y or z is the identity. *)
Theorem RotationMatrix_zero_angle (axis_name : string) :
  In axis_name ["x"; "y"; "z"]%string ->
  RotationMatrix 0 axis_name = Ok (identity 3).
Proof.
  intros Hin. axis_cases Hin; cbn;
    rewrite zero_degrees, cos_0, sin_0; entrywise; lra.
Qed.



(** X4: the transpose of a rotation is the rotation by the opposite
    angle. *)
Theorem RotationMatrix_transpose (theta : R) (axis_name : string) :
  In axis_name ["x"; "y"; "z"]%string ->
  result_map transpose (RotationMatrix theta axis_name) =
  RotationMatrix (- theta) axis_name.
Proof.
  intros Hin. axis_cases Hin; cbn;
    rewrite radians_opp, cos_neg, sin_neg; entrywise; lra.
Qed.




(** X8: the rotations follow the right-hand rule: about an axis, the unit
    vector of the next axis (in the order x, y, z, x) turns by [theta]
    towards the one after it.  So about z the x axis goes to
    (cos, sin, 0), about x the y axis to (0, cos, sin), about y the z axis
    to (sin, 0, cos). *)
Theorem RotationMatrix_right_handed (theta : R) (axis_name : string) :
  In axis_name ["x"; "y"; "z"]%string ->
  exists Rm,
    RotationMatrix theta axis_name = Ok Rm /\
    matmul Rm (column (axis_vector (next_axis axis_name)))
    = Ok (column
            (vadd (map (Rmult (cos (radians theta)))
                       (axis_vector (next_axis axis_name)))
                  (map (Rmult (sin (radians theta)))
                       (axis_vector (next_axis (next_axis axis_name)))))).
Proof.
  intros Hin. unfold radians. axis_cases Hin;
    (eexists; split; [ reflexivity | ]); cbn; entrywise; ring.
Qed.

End RotationProperties.

(** ** Further properties of [getLocalFrameMatrix] and of [@] *)

Section FrameShapes.

Context {A : Type} `{Scalar A}.

Lemma hstack_rows (a b : nat) (M N : list (list A)) :
  Forall (fun r => List.length r = a) M ->
  Forall (fun r => List.length r = b) N ->
  Forall (fun r => List.length r = (a + b)%nat)
         (map (fun p => fst p ++ snd p) (combine M N)).
Proof.
  intros HM. revert N.
  induction HM as [| r M Hr HM IH]; intros N HN; [ constructor | ].
  destruct HN as [| q N Hq HN]; [ constructor | ].
  simpl. constructor.
  - rewrite length_app. congruence.
  - apply IH. exact HN.
Qed.

(** X9: [getLocalFrameMatrix] does not accept blocks that do not fit.  For
    a rotation block with [n > 0] rows of width [a] and a translation block
    with [m] rows of width [b]: different row counts raise [ValueError];
    equal row counts with [a + b] other than 4 (the width of the bottom row
    the function appends) raise [ValueError]; otherwise the result has
    [n + 1] rows of width 4 and ends with the row [0, 0, 0, 1]. *)
Theorem getLocalFrameMatrix_shapes (n a m b : nat) (R_ij t_ij : list (list A)) :
  (0 < n)%nat ->
  has_shape n a R_ij -> has_shape m b t_ij ->
  (n <> m -> getLocalFrameMatrix R_ij t_ij = Err ValueError) /\
  (n = m -> (a + b)%nat <> 4%nat ->
   getLocalFrameMatrix R_ij t_ij = Err ValueError) /\
  (n = m -> (a + b)%nat = 4%nat ->
   exists T, getLocalFrameMatrix R_ij t_ij = Ok T /\
             has_shape (S n) 4 T /\
             last T [] = [lit 0; lit 0; lit 0; lit 1]).
Proof.
  intros Hn [HRn HRr] [Htn Htr].
  unfold getLocalFrameMatrix, np_block.
  change (hstack (np_zeros 1 3) [[lit 1]])
    with (Ok [[lit 0; lit 0; lit 0; lit 1]]).
  unfold hstack, nrows. rewrite HRn, Htn.
  split; [ | split ].
  - intros Hneq. apply Nat.eqb_neq in Hneq. rewrite Hneq. reflexivity.
  - intros <- Hwidth. rewrite Nat.eqb_refl. cbn.
    destruct R_ij as [| r R']; [ simpl in HRn; lia | ].
    destruct t_ij as [| q t']; [ simpl in Htn; lia | ].
    apply Forall_cons_iff in HRr, Htr.
    destruct HRr as [Hr _], Htr as [Hq _].
    unfold vstack. cbn. rewrite length_app, Hr, Hq.
    apply Nat.eqb_neq in Hwidth. rewrite Hwidth. reflexivity.
  - intros <- Hwidth. rewrite Nat.eqb_refl. cbn.
    pose proof (hstack_rows HRr Htr) as Hrows. rewrite Hwidth in Hrows.
    assert (Hlen : List.length
                     (map (fun p : list A * list A => fst p ++ snd p)
                          (combine R_ij t_ij)) = n).
    { rewrite length_map, length_combine, HRn, Htn. apply Nat.min_id. }
    set (top := map (fun p : list A * list A => fst p ++ snd p)
                    (combine R_ij t_ij)) in *.
    assert (Hcols : ncols top = 4%nat).
    { destruct top as [| r top']; [ simpl in Hlen; lia | ].
      apply Forall_cons_iff in Hrows. simpl. tauto. }
    unfold vstack. rewrite Hcols. cbn.
    eexists. split; [ reflexivity | ]. split.
    + split.
      * rewrite length_app, Hlen. simpl. lia.
      * apply Forall_app. split; [ exact Hrows | repeat constructor ].
    + apply last_last.
Qed.

(** X10: the blocks can be read back: the rotation block of
    [getLocalFrameMatrix R t] is [R] and its translation block is [t]. *)
Theorem getLocalFrameMatrix_blocks (R_ij t_ij : list (list A)) :
  has_shape 3 3 R_ij -> has_shape 3 1 t_ij ->
  exists T,
    getLocalFrameMatrix R_ij t_ij = Ok T /\
    rotation_of T = R_ij /\
    column (translation_of T) = t_ij.
Proof.
  intros HR Ht. rows_of_shape HR. rows_of_shape Ht.
  eexists. split; [ apply getLocalFrameMatrix_entries | ].
  split; reflexivity.
Qed.

End FrameShapes.

Section FrameAlgebra.

Local Open Scope R_scope.



(** X13: the product of 4 x 4 arrays is associative, so the grouping of
    the chain products does not matter. *)
Theorem matmul_assoc_4x4 (M N P : list (list R)) :
  has_shape 4 4 M -> has_shape 4 4 N -> has_shape 4 4 P ->
  exists MN NP Q,
    matmul M N = Ok MN /\ matmul N P = Ok NP /\
    matmul MN P = Ok Q /\ matmul M NP = Ok Q.
Proof.
  intros HM HN HP.
  rows_of_shape HM. rows_of_shape HN. rows_of_shape HP.
  do 3 eexists.
  split; [ reflexivity | ].
  split; [ reflexivity | ].
  split; [ reflexivity | ].
  cbn. entrywise; ring.
Qed.


End FrameAlgebra.

(** ** Further properties of [forward_kinematics] *)

Section ChainShapes.

Context {A : Type} `{Scalar A}.

(** X15: [forward_kinematics] fails only for want of angles, and then with
    [IndexError]; otherwise it returns four 4 x 4 arrays and a position of
    three entries, whatever the numbers are. *)
Theorem forward_kinematics_outcomes (Phi : list A) (L1 L2 L3 L4 : A) :
  ((List.length Phi < 4)%nat ->
   forward_kinematics Phi L1 L2 L3 L4 = Err IndexError) /\
  ((4 <= List.length Phi)%nat ->
   exists out,
     forward_kinematics Phi L1 L2 L3 L4 = Ok out /\
     Forall (has_shape 4 4) (world_frames out) /\
     List.length (end_effector out) = 3%nat).
Proof.
  split; [ apply forward_kinematics_short | ].
  intros Hlen.
  destruct (four_angles Phi Hlen) as (p0 & p1 & p2 & p3 & rest & ->).
  rewrite forward_kinematics_incremental.
  destruct (local_transform_shape p0 (lit 3) (lit 2) (lit 0.0))
    as (T_01 & -> & S01).
  destruct (local_transform_shape p1 (sadd L1 (smul (lit 2) (lit 0.4)))
              (lit 0.0) (lit 0.0)) as (T_12 & -> & S12).
  destruct (local_transform_shape p2 (sadd L2 (smul (lit 2) (lit 0.4)))
              (lit 0.0) (lit 0.0)) as (T_23 & -> & S23).
  destruct (local_transform_shape p3 (sadd L3 (smul (lit 2) (lit 0.4)))
              (lit 0.0) (lit 0.0)) as (T_34 & -> & S34).
  cbn [bind].
  destruct (@matmul_has_shape _ _ 4 4 4 T_01 T_12) as (T_02 & -> & S02);
    auto with arith.
  cbn [bind].
  destruct (@matmul_has_shape _ _ 4 4 4 T_02 T_23) as (T_03 & -> & S03);
    auto with arith.
  cbn [bind].
  destruct (@matmul_has_shape _ _ 4 4 4 T_03 T_34) as (T_04 & -> & S04);
    auto with arith.
  cbn [bind].
  destruct (last_column_top3_shape S04) as (e & -> & He).
  cbn [bind]. eexists. split; [ reflexivity | ].
  split; [ | exact He ].
  cbn [world_frames].
  repeat (apply Forall_cons; [ assumption | ]). apply Forall_nil.
Qed.

(** X16: the end-effector position does not depend on the fourth joint
    angle (nor on [L4], nor on further entries of [Phi]): the last joint
    only turns the last frame in place.  This holds for every kind of
    number. *)
Theorem end_effector_ignores_last_angle
        (p1 p2 p3 p4 p4' : A) (rest rest' : list A) (L1 L2 L3 L4 L4' : A) :
  result_map end_effector
             (forward_kinematics (p1 :: p2 :: p3 :: p4 :: rest) L1 L2 L3 L4) =
  result_map end_effector
             (forward_kinematics (p1 :: p2 :: p3 :: p4' :: rest') L1 L2 L3 L4').
Proof. reflexivity. Qed.

End ChainShapes.

Section ChainGeometry.

Local Open Scope R_scope.















End ChainGeometry.

(** ** The further properties at concrete inputs *)

Section FurtherInstances.

Local Open Scope R_scope.

Lemma axis_y_valid : In "y"%string ["x"; "y"; "z"]%string.
Proof. simpl. auto. Defined.

Lemma shape_3x3_quarter_turn :
  has_shape 3 3 [[0; -1; 0]; [1; 0; 0]; [0; 0; 1]].
Proof. split; [ reflexivity | repeat constructor ]. Defined.

Lemma shape_3x1_base : has_shape 3 1 [[3]; [2]; [0]].
Proof. split; [ reflexivity | repeat constructor ]. Defined.

Lemma shape_4x4_shift :
  has_shape 4 4 [[1; 0; 0; 5]; [0; 1; 0; 0]; [0; 0; 1; 0]; [0; 0; 0; 1]].
Proof. split; [ reflexivity | repeat constructor ]. Defined.

Lemma RotationMatrix_zero_angle_witness :
  In "y"%string ["x"; "y"; "z"]%string /\
  RotationMatrix 0 "y" = Ok (identity 3).
Proof.
  split; [ exact axis_y_valid | ].
  exact (@RotationMatrix_zero_angle "y"%string axis_y_valid).
Defined.



Lemma RotationMatrix_transpose_witness :
  In "y"%string ["x"; "y"; "z"]%string /\
  result_map transpose (RotationMatrix 30 "y") = RotationMatrix (- 30) "y".
Proof.
  split; [ exact axis_y_valid | ].
  exact (@RotationMatrix_transpose 30 "y"%string axis_y_valid).
Defined.



Lemma RotationMatrix_right_handed_witness :
  In "y"%string ["x"; "y"; "z"]%string /\
  exists Rm,
    RotationMatrix 30 "y" = Ok Rm /\
    matmul Rm (column (axis_vector (next_axis "y")))
    = Ok (column
            (vadd (map (Rmult (cos (radians 30)))
                       (axis_vector (next_axis "y")))
                  (map (Rmult (sin (radians 30)))
                       (axis_vector (next_axis (next_axis "y")))))).
Proof.
  split; [ exact axis_y_valid | ].
  exact (@RotationMatrix_right_handed 30 "y"%string axis_y_valid).
Defined.

Lemma getLocalFrameMatrix_shapes_witness :
  (0 < 3)%nat /\
  has_shape 3 3 [[0; -1; 0]; [1; 0; 0]; [0; 0; 1]] /\
  has_shape 3 1 [[3]; [2]; [0]] /\
  exists T,
    getLocalFrameMatrix [[0; -1; 0]; [1; 0; 0]; [0; 0; 1]] [[3]; [2]; [0]]
    = Ok T /\
    has_shape 4 4 T /\ last T [] = [0; 0; 0; 1].
Proof.
  assert (Hpos : (0 < 3)%nat) by lia.
  split; [ exact Hpos | ].
  split; [ exact shape_3x3_quarter_turn | ].
  split; [ exact shape_3x1_base | ].
  exact (proj2 (proj2 (@getLocalFrameMatrix_shapes R R_Scalar 3 3 3 1 _ _
                         Hpos shape_3x3_quarter_turn shape_3x1_base))
               eq_refl eq_refl).
Defined.

Lemma getLocalFrameMatrix_blocks_witness :
  has_shape 3 3 [[0; -1; 0]; [1; 0; 0]; [0; 0; 1]] /\
  has_shape 3 1 [[3]; [2]; [0]] /\
  exists T,
    getLocalFrameMatrix [[0; -1; 0]; [1; 0; 0]; [0; 0; 1]] [[3]; [2]; [0]]
    = Ok T /\
    rotation_of T = [[0; -1; 0]; [1; 0; 0]; [0; 0; 1]] /\
    column (translation_of T) = [[3]; [2]; [0]].
Proof.
  split; [ exact shape_3x3_quarter_turn | ].
  split; [ exact shape_3x1_base | ].
  exact (@getLocalFrameMatrix_blocks R R_Scalar _ _
           shape_3x3_quarter_turn shape_3x1_base).
Defined.



Lemma matmul_assoc_4x4_witness :
  has_shape 4 4 [[1; 0; 0; 5]; [0; 1; 0; 0]; [0; 0; 1; 0]; [0; 0; 0; 1]] /\
  exists MN NP Q,
    matmul [[1; 0; 0; 5]; [0; 1; 0; 0]; [0; 0; 1; 0]; [0; 0; 0; 1]]
           [[1; 0; 0; 5]; [0; 1; 0; 0]; [0; 0; 1; 0]; [0; 0; 0; 1]] = Ok MN /\
    matmul [[1; 0; 0; 5]; [0; 1; 0; 0]; [0; 0; 1; 0]; [0; 0; 0; 1]]
           [[1; 0; 0; 5]; [0; 1; 0; 0]; [0; 0; 1; 0]; [0; 0; 0; 1]] = Ok NP /\
    matmul MN [[1; 0; 0; 5]; [0; 1; 0; 0]; [0; 0; 1; 0]; [0; 0; 0; 1]] = Ok Q /\
    matmul [[1; 0; 0; 5]; [0; 1; 0; 0]; [0; 0; 1; 0]; [0; 0; 0; 1]] NP = Ok Q.
Proof.
  split; [ exact shape_4x4_shift | ].
  exact (@matmul_assoc_4x4 _ _ _
           shape_4x4_shift shape_4x4_shift shape_4x4_shift).
Defined.


Lemma forward_kinematics_outcomes_witness :
  (List.length [30; -10]%R < 4)%nat /\
  forward_kinematics [30; -10] 5 8 3 0 = Err IndexError /\
  (4 <= List.length [30; -10; 0; 2]%R)%nat /\
  exists out,
    forward_kinematics [30; -10; 0; 2] 5 8 3 0 = Ok out /\
    Forall (has_shape 4 4) (world_frames out) /\
    List.length (end_effector out) = 3%nat.
Proof.
  assert (Hshort : (List.length [30; -10]%R < 4)%nat) by (simpl; lia).
  assert (Hlong : (4 <= List.length [30; -10; 0; 2]%R)%nat) by (simpl; lia).
  split; [ exact Hshort | ].
  split; [ exact (proj1 (@forward_kinematics_outcomes R R_Scalar
                           [30; -10] 5 8 3 0) Hshort) | ].
  split; [ exact Hlong | ].
  exact (proj2 (@forward_kinematics_outcomes R R_Scalar
                  [30; -10; 0; 2] 5 8 3 0) Hlong).
Defined.


End FurtherInstances.
